(** * MedAI-Connect: the triage rule evaluator and the session cache

    A shallow embedding of [src/App.jsx]: the function [triageEngine]
    (lines 80-149) and the session handlers [handleTriage], [deleteSession],
    the "Clear Sessions" button and the [localStorage] effect of the [App]
    component.

    JavaScript numbers are IEEE-754 binary64 values: they are modelled by
    Rocq's primitive floats, so [0.6 + 0.15] below is the very addition the
    browser performs.  JavaScript strings are modelled by [string]; each
    character stands for the UTF-16 code unit of the same value (the Latin-1
    range). *)

From Stdlib Require Import ZArith Bool List String Ascii Lia.
From Stdlib Require Import PrimFloat FloatOps SpecFloat FloatClass.
From Stdlib Require Import DecimalString DecimalZ.
From Stdlib Require Import QArith Qround Qminmax.
Import ListNotations.

Set Warnings "-inexact-float".

Open Scope string_scope.
Open Scope list_scope.
Open Scope bool_scope.

(** ** JavaScript built-ins used by the component *)

Module JS.

(** [String.prototype.toLowerCase], one code unit at a time: on the Latin-1
    range the letters A-Z and the accented capitals U+00C0..U+00DE (the
    multiplication sign U+00D7 apart) move up by 32; nothing else changes. *)
Definition lower_char (c : ascii) : ascii :=
  let n := N_of_ascii c in
  if ((65 <=? n) && (n <=? 90) ||
      (192 <=? n) && (n <=? 222) && negb (n =? 215))%N
  then ascii_of_N (n + 32) else c.

Fixpoint toLowerCase (s : string) : string :=
  match s with
  | EmptyString => EmptyString
  | String c r => String (lower_char c) (toLowerCase r)
  end.

(** [s.includes(p)]: [p] occurs in [s] as a contiguous run. *)
Fixpoint includes (p s : string) : bool :=
  prefix p s ||
  match s with
  | EmptyString => false
  | String _ r => includes p r
  end.

(** [/a|b|c/.test(s)] for a regular expression that is an alternation of
    literal strings: some alternative occurs in [s]. *)
Definition test (alts : list string) (s : string) : bool :=
  existsb (fun p => includes p s) alts.

(** The same with the [i] flag: code units are compared up to case. *)
Definition test_i (alts : list string) (s : string) : bool :=
  test (map toLowerCase alts) (toLowerCase s).

(** The character class [[a-zA-Z0-9]]. *)
Definition is_alnum (c : ascii) : bool :=
  let n := N_of_ascii c in
  ((97 <=? n) && (n <=? 122) || (65 <=? n) && (n <=? 90) ||
   (48 <=? n) && (n <=? 57))%N.

(** [s.split(/[^a-zA-Z0-9]+/)]: the pieces between maximal runs of
    separators.  [cur] is the piece being read, [insep] tells that the
    previous code unit was a separator (the run goes on). *)
Fixpoint split_from (insep : bool) (cur s : string) : list string :=
  match s with
  | EmptyString => [cur]
  | String c r =>
      if is_alnum c then split_from false (cur ++ String c EmptyString)%string r
      else if insep then split_from true cur r
      else cur :: split_from true EmptyString r
  end.

Definition split (s : string) : list string := split_from false EmptyString s.

(** [Boolean(s)] for a string: the empty string is falsy. *)
Definition Boolean_string (s : string) : bool :=
  match s with EmptyString => false | _ => true end.

(** [Boolean(x)] for a number: [0], [-0] and [NaN] are falsy. *)
Definition Boolean_number (x : float) : bool :=
  negb (PrimFloat.eqb x 0 || PrimFloat.is_nan x).

(** [Math.max] and [Math.min] of two numbers. *)
Definition Math_max (x y : float) : float :=
  if PrimFloat.is_nan x || PrimFloat.is_nan y then nan
  else if PrimFloat.ltb x y then y
  else if PrimFloat.ltb y x then x
  else match PrimFloat.classify x with NZero => y | _ => x end.

Definition Math_min (x y : float) : float :=
  if PrimFloat.is_nan x || PrimFloat.is_nan y then nan
  else if PrimFloat.ltb x y then x
  else if PrimFloat.ltb y x then y
  else match PrimFloat.classify x with PZero => y | _ => x end.

(** Decimal digits of an integer, as [String(n)] prints them. *)
Definition digits (n : Z) : string := NilEmpty.string_of_int (Z.to_int n).

(** The integer nearest to [m * 2^e], the larger one on a tie. *)
Definition nearest (m : positive) (e : Z) : Z :=
  (if 0 <=? e then Z.pos m * 2 ^ e
   else (2 * Z.pos m + 2 ^ (- e)) / 2 ^ (1 - e))%Z.

(** [x.toFixed(0)]: the exact value of [x] rounded to the nearest integer
    (ties away from zero) and printed in decimal.  From 1e21 on JavaScript
    prints an exponent instead; the model prints all the digits there. *)
Definition toFixed0 (x : float) : string :=
  match Prim2SF x with
  | S754_nan => "NaN"
  | S754_infinity s => if s then "-Infinity" else "Infinity"
  | S754_zero _ => "0"
  | S754_finite s m e => ((if s then "-" else "") ++ digits (nearest m e))%string
  end.

End JS.

(** ** The rule evaluator: [triageEngine] *)

Module Triage.
Import JS.

(** A device field holds [null] ([None]) or a number. *)
Record Device := mkDevice {
  spo2 : option float;
  temp : option float;
  hr : option float
}.

(** The argument [{ text, device }]; [None] stands for [null]/[undefined]. *)
Record Payload := mkPayload {
  text : option string;
  device : option Device
}.

Record Flags := mkFlags {
  fever : bool; cough : bool; breath : bool; chest : bool;
  vomit : bool; dizzy : bool; bleed : bool; rash : bool
}.

(** The returned object.  [timestamp] is the instant read from the clock
    (milliseconds); its ISO-8601 rendering is not modelled. *)
Record TriageResult := mkResult {
  urgency : string;
  explanation : string;
  confidence : string;
  possible : list string;
  timestamp : Z
}.

(** [x && g(x)] on a device field: [null], [0] and [NaN] stop the test. *)
Definition guarded (x : option float) (g : float -> bool) : bool :=
  match x with
  | None => false
  | Some v => Boolean_number v && g v
  end.

(** The alternatives of the [breath] and [chest] patterns (lines 88-89). *)
Definition breath_keywords :=
  ["breath"; "breathing"; "shortness"; "dyspnea"; "breathless"].
Definition chest_keywords := ["chest"; "pressure"; "pain in chest"].

(** Lines 85-94. *)
Definition flags_of (t : string) : Flags :=
  {| fever := test ["fever"; "temperature"; "hot"; "chills"] t;
     cough := test ["cough"; "coughing"] t;
     breath := test breath_keywords t;
     chest := test chest_keywords t;
     vomit := test ["vomit"; "nausea"; "throw up"] t;
     dizzy := test ["dizzy"; "faint"; "lightheaded"] t;
     bleed := test ["bleed"; "blood"] t;
     rash := test ["rash"; "itch"; "red spot"; "spots"] t |}.

Definition low_oxygen_warning := "Low oxygen saturation (SpO2)".
Definition fever_warning := "Fever: elevated body temperature".
Definition heart_rate_warning := "Abnormal heart rate".

(** Lines 96-100. *)
Definition devWarnings_of (dev : Device) : list string :=
  (if guarded (spo2 dev) (fun v => PrimFloat.ltb v 92)
   then [low_oxygen_warning] else []) ++
  (if guarded (temp dev) (fun v => PrimFloat.leb 38.0 v)
   then [fever_warning] else []) ++
  (if guarded (hr dev) (fun v => PrimFloat.ltb v 50 || PrimFloat.ltb 120 v)
   then [heart_rate_warning] else []).

Definition reason_serious :=
  "Symptoms related to breathing or chest pain can be serious.".
Definition reason_fever_cough :=
  "Fever with cough may need medical review within 24-48 hours.".
Definition reason_fever_alone :=
  "Fever alone often needs home care and monitoring.".
Definition reason_fever_rash :=
  "Fever with rash can be a sign of infection; consult if it worsens.".
Definition reason_vomit_dizzy :=
  "Persistent vomiting or dizziness can cause dehydration and needs attention.".
Definition reason_mild := "Symptoms seem mild from the description.".

(** Lines 102-121: the [if]/[else if] chain; the result is the pair
    [(urgency, reasonParts)]. *)
Definition basic_triage (flags : Flags) (devWarnings : list string)
  : string * list string :=
  if chest flags || breath flags ||
     existsb (test_i ["oxygen"; "heart"; "breath"]) devWarnings
  then ("high", [reason_serious])
  else if fever flags && cough flags then ("moderate", [reason_fever_cough])
  else if fever flags then ("low", [reason_fever_alone])
  else if rash flags && fever flags then ("moderate", [reason_fever_rash])
  else if vomit flags || dizzy flags then ("moderate", [reason_vomit_dizzy])
  else ("low", [reason_mild]).

(** Lines 123-126: device warnings go into the reasons and may set the
    urgency. *)
Definition incorporate (devWarnings : list string) (ur : string * list string)
  : string * list string :=
  if (0 <? List.length devWarnings)%nat then
    (if existsb (test_i ["Low oxygen"; "Abnormal heart rate"]) devWarnings
     then "high" else fst ur,
     snd ur ++ map (fun w => ("Device reading: " ++ w ++ ".")%string) devWarnings)
  else ur.

(** Lines 128-133, the confidence before it is printed. *)
Definition raw_confidence (keywordCount : nat) (devWarnings : list string)
  (urgency : string) : float :=
  let confidence := 0.6%float in
  let confidence :=
    if (6 <? keywordCount)%nat then (confidence + 0.15)%float else confidence in
  let confidence :=
    if (0 <? List.length devWarnings)%nat then (confidence + 0.15)%float
    else confidence in
  if String.eqb urgency "high" then Math_max confidence 0.8 else confidence.

Definition confidence_of (keywordCount : nat) (devWarnings : list string)
  (urgency : string) : float :=
  Math_min 0.95 (raw_confidence keywordCount devWarnings urgency).

Definition common_cold := "Common cold or minor viral illness".

(** Lines 135-140. *)
Definition possible_of (flags : Flags) : list string :=
  let possible :=
    (if fever flags && cough flags then ["Flu or respiratory infection"] else []) ++
    (if cough flags && breath flags
     then ["Lower respiratory tract issue (e.g., pneumonia)"] else []) ++
    (if rash flags then ["Allergic reaction or skin infection"] else []) ++
    (if vomit flags then ["Gastroenteritis or food-related illness"] else []) in
  if (List.length possible =? 0)%nat then possible ++ [common_cold] else possible.

(** The normalised text and the word list of lines 82-83. *)
Definition normalized (p : Payload) : string :=
  toLowerCase (match text p with Some s => s | None => "" end).

Definition words_of (t : string) : list string :=
  filter Boolean_string (split t).

Definition device_of (p : Payload) : Device :=
  match device p with Some d => d | None => mkDevice None None None end.

(** [triageEngine({ text, device })]; [now] is the clock reading taken by
    [new Date()]. *)
Definition triageEngine (now : Z) (p : Payload) : TriageResult :=
  let t := normalized p in
  let words := words_of t in
  let flags := flags_of t in
  let devWarnings := devWarnings_of (device_of p) in
  let ur := incorporate devWarnings (basic_triage flags devWarnings) in
  let confidence := confidence_of (List.length words) devWarnings (fst ur) in
  {| urgency := fst ur;
     explanation := String.concat " " (snd ur);
     confidence := (toFixed0 (confidence * 100) ++ "%")%string;
     possible := possible_of flags;
     timestamp := now |}.

End Triage.

(** ** The component state and the session handlers *)

Module Store.
Import JS Triage.

Record Session := mkSession {
  id : string;
  input : Payload;
  result : TriageResult
}.

(** The state the handlers read and write: the [useState] cells of [App]
    and the browser's [localStorage] entry ["medai_sessions"].  The entry is
    absent ([None]) or holds the JSON text of a session array, modelled by
    the array it parses to. *)
Record State := mkState {
  inputText : string;
  transcript : string;
  deviceData : Device;
  currentResult : option TriageResult;
  sessions : list Session;
  localStorage : option (list Session)
}.

Definition set_sessions (l : list Session) (st : State) : State :=
  mkState (inputText st) (transcript st) (deviceData st) (currentResult st)
          l (localStorage st).

Definition set_localStorage (v : option (list Session)) (st : State) : State :=
  mkState (inputText st) (transcript st) (deviceData st) (currentResult st)
          (sessions st) v.

(** Lines 28-35, the initialiser of [sessions]. *)
Definition load (raw : option (list Session)) : list Session :=
  match raw with
  | Some l => l
  | None => []
  end.

(** Lines 39-41, the effect that runs after every render in which
    [sessions] is a new array. *)
Definition persist (st : State) : State :=
  set_localStorage (Some (sessions st)) st.

(** Lines 150-160.  [stamp] is the clock reading of [new Date()] inside
    [triageEngine], [now] the one of [Date.now()]. *)
Definition payload_of (st : State) : Payload :=
  {| text := Some (if Boolean_string (inputText st) then inputText st
                   else transcript st);
     device := Some (deviceData st) |}.

(** The template literal [`s_${Date.now()}`]. *)
Definition mkid (now : Z) : string := ("s_" ++ digits now)%string.

Definition new_session (stamp now : Z) (st : State) : Session :=
  {| id := mkid now;
     input := payload_of st;
     result := triageEngine stamp (payload_of st) |}.

Definition handleTriage (stamp now : Z) (st : State) : State :=
  let session := new_session stamp now st in
  mkState (inputText st) (transcript st) (deviceData st) (Some (result session))
          (firstn 50 (session :: sessions st)) (localStorage st).

(** Lines 181-183. *)
Definition deleteSession (i : string) (st : State) : State :=
  set_sessions (filter (fun s => negb (String.eqb (id s) i)) (sessions st)) st.

(** Line 254, the handler of the "Clear Sessions" button. *)
Definition clearSessions (st : State) : State :=
  set_localStorage None (set_sessions [] st).

(** A page load: the component mounts on what [localStorage] holds, and the
    effect runs after the first render. *)
Definition mount (raw : option (list Session)) : State :=
  persist (mkState "" "" (mkDevice None None None) None (load raw) raw).

(** What can happen to the page.  [SimulateDevice] carries the three
    readings that [simulateDevice] computed from [Math.random()]. *)
Inductive event :=
| SetInputText (v : string)
| OnResult (t : string)
| UseLastTranscript
| SimulateDevice (spo2 temp hr : float)
| ClearDevice
| HandleTriage (stamp now : Z)
| DeleteSession (i : string)
| ClearSessions
| Reload.

(** One event: the handler, then the effect when [sessions] was set. *)
Definition step (st : State) (ev : event) : State :=
  match ev with
  | SetInputText v =>
      mkState v (transcript st) (deviceData st) (currentResult st)
              (sessions st) (localStorage st)
  | OnResult t =>
      mkState t t (deviceData st) (currentResult st)
              (sessions st) (localStorage st)
  | UseLastTranscript =>
      mkState (transcript st) (transcript st) (deviceData st) (currentResult st)
              (sessions st) (localStorage st)
  | SimulateDevice a b c =>
      mkState (inputText st) (transcript st)
              (mkDevice (Some a) (Some b) (Some c)) (currentResult st)
              (sessions st) (localStorage st)
  | ClearDevice =>
      mkState (inputText st) (transcript st)
              (mkDevice None None None) (currentResult st)
              (sessions st) (localStorage st)
  | HandleTriage stamp now => persist (handleTriage stamp now st)
  | DeleteSession i => persist (deleteSession i st)
  | ClearSessions => persist (clearSessions st)
  | Reload => mount (localStorage st)
  end.

(** The first visit: nothing is stored yet. *)
Definition boot : State := mount None.

Definition run_from (st : State) (evs : list event) : State :=
  fold_left step evs st.

Definition run (evs : list event) : State := run_from boot evs.

(** The [Date.now()] readings of a trace, in the order they were taken. *)
Fixpoint ticks (evs : list event) : list Z :=
  match evs with
  | [] => []
  | HandleTriage _ now :: r => now :: ticks r
  | _ :: r => ticks r
  end.

(** The sessions a trace creates from [st] on, oldest first. *)
Fixpoint created (st : State) (evs : list event) : list Session :=
  match evs with
  | [] => []
  | ev :: r =>
      match ev with
      | HandleTriage stamp now =>
          new_session stamp now st :: created (step st ev) r
      | _ => created (step st ev) r
      end
  end.

End Store.
Import JS Triage Store.

(** ** What the specification says, in its own words *)

Module Spec.

(** Section 4.1, step 4: the branches (a)-(e) in the listed order, each a
    condition with the urgency and the reason it gives; (f) is the default. *)
Definition condition_a (flags : Flags) (devWarnings : list string) : bool :=
  chest flags || breath flags ||
  existsb (test_i ["oxygen"; "heart"; "breath"]) devWarnings.

Definition branches (flags : Flags) (devWarnings : list string)
  : list (bool * (string * list string)) :=
  [ (condition_a flags devWarnings, ("high", [reason_serious]));
    (fever flags && cough flags, ("moderate", [reason_fever_cough]));
    (fever flags, ("low", [reason_fever_alone]));
    (rash flags && fever flags, ("moderate", [reason_fever_rash]));
    (vomit flags || dizzy flags, ("moderate", [reason_vomit_dizzy])) ].

Definition branch_f : string * list string := ("low", [reason_mild]).

(** The position of the first branch whose condition is true. *)
Fixpoint first_true (conds : list bool) : option nat :=
  match conds with
  | [] => None
  | true :: _ => Some 0%nat
  | false :: r => option_map S (first_true r)
  end.

(** Evaluate in sequence and stop at the first true branch. *)
Fixpoint first_match {A} (bs : list (bool * A)) (default : A) : A :=
  match bs with
  | [] => default
  | (c, a) :: r => if c then a else first_match r default
  end.

(** Step 7 over the rationals: start at 0.60, add 0.15 twice as told, raise
    to 0.80 when the urgency is high, clamp at 0.95. *)
Definition confidence (many_words any_warning high : bool) : Q :=
  let c := 0.60%Q in
  let c := if many_words then (c + 0.15)%Q else c in
  let c := if any_warning then (c + 0.15)%Q else c in
  let c := if high then Qmax c 0.80%Q else c in
  Qmin c 0.95%Q.

(** [round(confidence*100)]. *)
Definition percent (c : Q) : Z := Qfloor (c * 100 + (1 # 2))%Q.

End Spec.


(** ** Notions used in the statements *)

(** A word occurs in a text up to case. *)
Definition occurs_folded (kw s : string) : Prop :=
  exists pre w post,
    s = (pre ++ w ++ post)%string /\ toLowerCase w = kw.

(** A whole percentage as the result prints it. *)
Definition percent_text (n : Z) : string := (digits n ++ "%")%string.

(** The effect has run: [localStorage] holds the current array. *)
Definition synced (st : State) : Prop := localStorage st = Some (sessions st).

(** A trace that only edits the inputs and runs triage. *)
Definition keeps_history (ev : event) : bool :=
  match ev with
  | DeleteSession _ | ClearSessions | Reload => false
  | _ => true
  end.

(** A trace that fills the store past the cap: one description, 51 runs. *)
Definition fifty_one_runs : list event :=
  SetInputText "fever and cough for two days" ::
  map (fun n => HandleTriage (Z.of_nat n) (Z.of_nat n)) (seq 1 51).

(** Every reading is at least [b] and above the one before it. *)
Fixpoint rising (b : Z) (l : list Z) : bool :=
  match l with
  | [] => true
  | t :: r => (b <=? t)%Z && rising (t + 1) r
  end.

(** Strictly increasing clock readings. *)
Definition increasing (l : list Z) : bool :=
  match l with
  | [] => true
  | t :: r => rising (t + 1) r
  end.

(** The identifiers of [l] come from readings below [b], each below the one
    in front of it. *)
Fixpoint chain (b : Z) (l : list Session) : Prop :=
  match l with
  | [] => True
  | s :: r => exists t, id s = mkid t /\ (t < b)%Z /\ chain t r
  end.

(** A device field as the guards of lines 98-100 see it: a falsy number
    counts as no reading. *)
Definition seen (x : option float) : option float :=
  match x with
  | Some v => if Boolean_number v then Some v else None
  | None => None
  end.

(** Every code unit of [s] is in the class [[a-zA-Z0-9]]. *)
Fixpoint all_alnum (s : string) : bool :=
  match s with
  | EmptyString => true
  | String c r => is_alnum c && all_alnum r
  end.

(** The part of the explanation that a device warning adds. *)
Definition device_line (w : string) : string :=
  (" Device reading: " ++ w ++ ".")%string.

(** The two guards that decide the urgency on the device side. *)
Definition oxygen_low (dev : Device) : bool :=
  guarded (spo2 dev) (fun v => PrimFloat.ltb v 92).

Definition heart_abnormal (dev : Device) : bool :=
  guarded (hr dev) (fun v => PrimFloat.ltb v 50 || PrimFloat.ltb 120 v).




(** ** Worked cases *)

Example fever_and_cough :
  let r := triageEngine 0 (mkPayload (Some "fever and cough for two days") None) in
  urgency r = "moderate" /\ explanation r = reason_fever_cough /\
  possible r = ["Flu or respiratory infection"] /\ confidence r = "60%".
Proof. repeat split. Qed.

Example empty_description :
  let r := triageEngine 0 (mkPayload (Some "") None) in
  urgency r = "low" /\ possible r = [common_cold] /\ confidence r = "60%".
Proof. repeat split. Qed.

Example low_saturation :
  let r := triageEngine 0 (mkPayload (Some "")
                             (Some (mkDevice (Some 85%float) None None))) in
  urgency r = "high" /\ confidence r = "80%" /\
  explanation r =
    (reason_serious ++ " Device reading: Low oxygen saturation (SpO2).")%string.
Proof. repeat split. Qed.

Example long_description_with_warnings :
  let r := triageEngine 0
             (mkPayload (Some "Itchy rash, threw up twice; feeling HOT since Monday")
                        (Some (mkDevice (Some 97%float) (Some 38.4%float) (Some 88%float)))) in
  urgency r = "low" /\ confidence r = "90%" /\
  possible r = ["Allergic reaction or skin infection"].
Proof. repeat split. Qed.

Example split_pieces :
  split ",a,,b c," = [""; "a"; "b"; "c"; ""] /\ split "" = [""] /\
  words_of "  hello, world!! 42 " = ["hello"; "world"; "42"].
Proof. repeat split. Qed.

Example toFixed0_rounding :
  toFixed0 0.5 = "1" /\ toFixed0 2.4999 = "2" /\ toFixed0 (-0.4) = "-0" /\
  toFixed0 (0.6 * 100) = "60" /\ toFixed0 ((0.6 + 0.15 + 0.15) * 100) = "90".
Proof. repeat split. Qed.

(** ** Strings and patterns *)

Lemma toLowerCase_app (a b : string) :
  toLowerCase (a ++ b)%string = (toLowerCase a ++ toLowerCase b)%string.
Proof.
  induction a as [|c a IH]; simpl; [reflexivity | now rewrite IH].
Qed.

Lemma prefix_app (p b : string) : prefix p (p ++ b)%string = true.
Proof.
  induction p as [|c p IH]; simpl; [now destruct b |].
  destruct (ascii_dec c c) as [_|ne]; [exact IH | now elim ne].
Qed.

Lemma includes_eq (p s : string) :
  includes p s =
  prefix p s ||
  match s with
  | EmptyString => false
  | String _ r => includes p r
  end.
Proof.
  destruct s; reflexivity.
Qed.

Lemma includes_app (p a b : string) :
  includes p (a ++ p ++ b)%string = true.
Proof.
  induction a as [|c a IH].
  - change (includes p (p ++ b)%string = true).
    now rewrite includes_eq, prefix_app.
  - change (includes p (String c (a ++ p ++ b)%string) = true).
    rewrite includes_eq, IH. apply orb_true_r.
Qed.

Lemma test_occurs (alts : list string) (kw s : string) :
  In kw alts -> occurs_folded kw s -> test alts (toLowerCase s) = true.
Proof.
  intros Hin (pre & w & post & -> & Hw).
  unfold test. apply existsb_exists. exists kw. split; [exact Hin |].
  rewrite !toLowerCase_app, Hw. apply includes_app.
Qed.

(** ** The urgency chain *)

Ltac split_ifs :=
  repeat match goal with
         | |- context [if ?b then _ else _] => destruct b eqn:?
         end.

Lemma basic_triage_serious (flags : Flags) (dw : list string) :
  chest flags || breath flags ||
    existsb (test_i ["oxygen"; "heart"; "breath"]) dw = true ->
  basic_triage flags dw = ("high", [reason_serious]).
Proof.
  intros H. unfold basic_triage. now rewrite H.
Qed.

Lemma basic_triage_urgency (flags : Flags) (dw : list string) :
  In (fst (basic_triage flags dw)) ["low"; "moderate"; "high"].
Proof.
  unfold basic_triage. split_ifs; simpl; auto.
Qed.

Lemma incorporate_urgency (dw : list string) (ur : string * list string) :
  fst (incorporate dw ur) = fst ur \/ fst (incorporate dw ur) = "high".
Proof.
  unfold incorporate. split_ifs; simpl; auto.
Qed.

Lemma incorporate_keeps_high (dw : list string) (rs : list string) :
  fst (incorporate dw ("high", rs)) = "high".
Proof.
  destruct (incorporate_urgency dw ("high", rs)) as [H|H]; exact H.
Qed.

(** The low-oxygen and heart-rate warnings already match the pattern of the
    first branch, so the device step never changes the urgency of the chain. *)
Lemma warnings_shape (dev : Device) :
  exists a b c : bool,
    devWarnings_of dev =
      (if a then [low_oxygen_warning] else []) ++
      (if b then [fever_warning] else []) ++
      (if c then [heart_rate_warning] else []).
Proof.
  unfold devWarnings_of. eauto.
Qed.

Lemma incorporate_redundant (flags : Flags) (dev : Device) :
  let dw := devWarnings_of dev in
  fst (incorporate dw (basic_triage flags dw)) = fst (basic_triage flags dw).
Proof.
  destruct (warnings_shape dev) as (a & b & c & E). cbv zeta. rewrite E.
  unfold basic_triage, incorporate.
  destruct a, b, c, (chest flags), (breath flags), (fever flags),
    (cough flags), (rash flags), (vomit flags), (dizzy flags); reflexivity.
Qed.



(** ** Confidence *)

Lemma raw_confidence_values (k : nat) (dw : list string) (u : string) :
  In (raw_confidence k dw u) [0.6; 0.75; 0.8; 0.9]%float.
Proof.
  unfold raw_confidence.
  destruct (6 <? k)%nat, (0 <? List.length dw)%nat, (String.eqb u "high");
    vm_compute; auto 6.
Qed.

Lemma clamp_idle (k : nat) (dw : list string) (u : string) :
  confidence_of k dw u = raw_confidence k dw u.
Proof.
  unfold confidence_of.
  destruct (raw_confidence_values k dw u) as [E|[E|[E|[E|[]]]]];
    rewrite <- E; reflexivity.
Qed.

Lemma confidence_refines (k : nat) (dw : list string) (u : string) :
  (toFixed0 (confidence_of k dw u * 100) ++ "%")%string =
  percent_text
    (Spec.percent
       (Spec.confidence (6 <? k)%nat (0 <? List.length dw)%nat
                        (String.eqb u "high"))).
Proof.
  unfold confidence_of, raw_confidence.
  destruct (6 <? k)%nat, (0 <? List.length dw)%nat, (String.eqb u "high");
    vm_compute; reflexivity.
Qed.

(** ** The claims about the rule evaluator *)

(** The guard of line 98 at a saturation of 0, taken as a bare function
    call: the number is falsy, so no warning is emitted and an empty
    description gets [low].  The page never holds such a reading: see
    [spo2_range]. *)
Remark zero_saturation_ignored (now : Z) :
  let p := mkPayload (Some "") (Some (mkDevice (Some 0%float) None None)) in
  PrimFloat.ltb 0 92 = true /\
  devWarnings_of (device_of p) = [] /\
  urgency (triageEngine now p) = "low".
Proof.
  intros p. split; [| split]; reflexivity.
Qed.

(** C2: the chain of [basic_triage] is the first-match evaluation of the
    branches (a)-(e) in the listed order with (f) as default; when the fever
    flag is set, the cough flag is not and the condition of (a) fails, step 4
    gives [low] with the fever-alone reason (and that is the urgency
    returned); branch (d) is never the first true branch, and its reason is
    never the one given. *)
Theorem urgency_first_match (now : Z) (p : Payload) :
  let flags := flags_of (normalized p) in
  let dw := devWarnings_of (device_of p) in
  basic_triage flags dw = Spec.first_match (Spec.branches flags dw) Spec.branch_f /\
  (fever flags = true -> cough flags = false ->
   Spec.condition_a flags dw = false ->
   basic_triage flags dw = ("low", [reason_fever_alone]) /\
   urgency (triageEngine now p) = "low") /\
  Spec.first_true (map fst (Spec.branches flags dw)) <> Some 3%nat /\
  snd (basic_triage flags dw) <> [reason_fever_rash].
Proof.
  intros flags dw.
  assert (Hc : forall (Hf : fever flags = true) (Hk : cough flags = false)
                 (Ha : Spec.condition_a flags dw = false),
             basic_triage flags dw = ("low", [reason_fever_alone])).
  { intros Hf Hk Ha. unfold Spec.condition_a in Ha. unfold basic_triage.
    now rewrite Ha, Hf, Hk. }
  split; [reflexivity |]. split; [| split].
  - intros Hf Hk Ha. split; [now apply Hc |].
    unfold triageEngine; cbn [urgency]. fold flags.
    rewrite incorporate_redundant. fold dw. now rewrite Hc.
  - unfold Spec.branches, Spec.condition_a; cbn [map fst Spec.first_true].
    destruct (chest flags || breath flags || _), (fever flags),
      (cough flags), (rash flags), (vomit flags || dizzy flags);
      discriminate.
  - unfold basic_triage.
    destruct (chest flags || breath flags || _), (fever flags),
      (cough flags), (rash flags), (vomit flags || dizzy flags);
      discriminate.
Qed.

Lemma urgency_first_match_witness :
  basic_triage (flags_of "fever") [] = ("low", [reason_fever_alone]) /\
  urgency (triageEngine 0 (mkPayload (Some "Fever") None)) = "low".
Proof.
  exact (proj1 (proj2 (urgency_first_match 0 (mkPayload (Some "Fever") None)))
           eq_refl eq_refl eq_refl).
Defined.

(** C4: for every input the reported confidence is the percentage that the
    specification's computation gives: 0.60, plus 0.15 when there are more
    than 6 words, plus 0.15 when a device warning exists, raised to 0.80 when
    the urgency is [high], clamped at 0.95, times 100 and rounded. *)
Theorem confidence_follows_spec (now : Z) (p : Payload) :
  let r := triageEngine now p in
  confidence r =
  percent_text
    (Spec.percent
       (Spec.confidence
          (6 <? List.length (words_of (normalized p)))%nat
          (match devWarnings_of (device_of p) with [] => false | _ => true end)
          (String.eqb (urgency r) "high"))).
Proof.
  unfold triageEngine; cbn [confidence urgency].
  rewrite confidence_refines.
  now destruct (devWarnings_of (device_of p)).
Qed.

(** C5: for every text and optional device reading the urgency is one of
    [low], [moderate], [high], the confidence is a whole percentage between
    0 and 95, the list of possible conditions is not empty, and when none of
    the four condition checks matched it is the common-cold entry alone. *)
Theorem result_ranges (now : Z) (p : Payload) :
  let r := triageEngine now p in
  let flags := flags_of (normalized p) in
  In (urgency r) ["low"; "moderate"; "high"] /\
  (exists n : Z, confidence r = percent_text n /\ (0 <= n <= 95)%Z) /\
  (1 <= List.length (possible r))%nat /\
  (fever flags && cough flags = false -> cough flags && breath flags = false ->
   rash flags = false -> vomit flags = false ->
   possible r = [common_cold]).
Proof.
  intros r flags. subst r. unfold triageEngine.
  cbn [urgency confidence possible]. fold flags.
  split; [| split; [| split]].
  - destruct (incorporate_urgency (devWarnings_of (device_of p))
                (basic_triage flags (devWarnings_of (device_of p)))) as [E|E];
      rewrite E; [apply basic_triage_urgency | simpl; auto].
  - rewrite confidence_refines. eexists. split; [reflexivity |].
    destruct (6 <? _)%nat, (0 <? _)%nat, (String.eqb _ "high");
      vm_compute; split; discriminate.
  - unfold possible_of.
    destruct (fever flags && cough flags), (cough flags && breath flags),
      (rash flags), (vomit flags); simpl; lia.
  - intros H1 H2 H3 H4. unfold possible_of. now rewrite H1, H2, H3, H4.
Qed.

Lemma result_ranges_witness :
  possible (triageEngine 0 (mkPayload (Some "") None)) = [common_cold].
Proof.
  exact (proj2 (proj2 (proj2 (result_ranges 0 (mkPayload (Some "") None))))
           eq_refl eq_refl eq_refl eq_refl).
Defined.

(** C6: a text in which a chest or breathing keyword occurs (in any case)
    gets urgency [high] whatever the device readings are; the device step
    leaves the urgency as it is or sets it to [high], so it keeps [high], and
    it does raise [low] to [high] on a low-oxygen warning. *)
Theorem keywords_force_high :
  (forall (now : Z) (p : Payload) (s kw : string),
      text p = Some s ->
      In kw (chest_keywords ++ breath_keywords) ->
      occurs_folded kw s ->
      urgency (triageEngine now p) = "high") /\
  (forall dw ur,
      fst (incorporate dw ur) = fst ur \/ fst (incorporate dw ur) = "high") /\
  (forall dw rs, fst (incorporate dw ("high", rs)) = "high") /\
  fst (incorporate [low_oxygen_warning] ("low", [])) = "high".
Proof.
  split; [| split; [| split; [| reflexivity]]].
  - intros now p s kw Ht Hin Hocc.
    unfold triageEngine; cbn [urgency].
    rewrite basic_triage_serious; [apply incorporate_keeps_high |].
    assert (Hn : normalized p = toLowerCase s) by (unfold normalized; now rewrite Ht).
    apply orb_true_iff. left. apply orb_true_iff.
    apply in_app_or in Hin. destruct Hin as [Hin|Hin]; [left | right];
      cbn [flags_of chest breath]; rewrite Hn; now apply test_occurs with kw.
  - apply incorporate_urgency.
  - apply incorporate_keeps_high.
Qed.

Lemma keywords_force_high_witness :
  urgency
    (triageEngine 0
       (mkPayload (Some "Sudden CHEST pain")
                  (Some (mkDevice (Some 98%float) (Some 36.6%float) (Some 70%float)))))
  = "high".
Proof.
  apply (proj1 keywords_force_high) with (s := "Sudden CHEST pain") (kw := "chest").
  - reflexivity.
  - simpl; auto.
  - exists "Sudden ", "CHEST", " pain". split; reflexivity.
Defined.

(** C10: for every input the reported confidence is 60%, 75%, 80% or 90%,
    and the clamp at 0.95 leaves the value as it finds it. *)
Theorem confidence_percent_values (now : Z) (p : Payload) :
  let r := triageEngine now p in
  In (confidence r) ["60%"; "75%"; "80%"; "90%"] /\
  confidence_of (List.length (words_of (normalized p)))
                (devWarnings_of (device_of p)) (urgency r) =
  raw_confidence (List.length (words_of (normalized p)))
                 (devWarnings_of (device_of p)) (urgency r).
Proof.
  split; [| apply clamp_idle].
  unfold triageEngine; cbn [confidence urgency].
  rewrite confidence_refines.
  destruct (6 <? _)%nat, (0 <? _)%nat, (String.eqb _ "high");
    vm_compute; auto 6.
Qed.

(** ** The session store *)

Lemma persist_synced (st : State) : synced (persist st).
Proof. reflexivity. Qed.

Lemma step_synced (st : State) (ev : event) : synced st -> synced (step st ev).
Proof.
  unfold synced. destruct ev; intros H; try exact H; reflexivity.
Qed.

(** The array each event leaves in [sessions]. *)
Lemma sessions_step (st : State) (ev : event) :
  sessions (step st ev) =
  match ev with
  | HandleTriage stamp now =>
      firstn 50 (new_session stamp now st :: sessions st)
  | DeleteSession i =>
      filter (fun s => negb (String.eqb (id s) i)) (sessions st)
  | ClearSessions => []
  | Reload => load (localStorage st)
  | _ => sessions st
  end.
Proof.
  destruct ev; reflexivity.
Qed.

Lemma mount_sessions (st : State) :
  synced st -> sessions (mount (localStorage st)) = sessions st.
Proof.
  unfold synced. intros H. rewrite H. reflexivity.
Qed.

(** An invariant of [sessions] that every handler keeps holds after every
    trace. *)
Section TraceInvariant.

Variable P : list Session -> Prop.
Hypothesis step_keeps :
  forall st ev, synced st -> P (sessions st) -> P (sessions (step st ev)).

Lemma run_from_invariant (evs : list event) :
  forall st, synced st -> P (sessions st) ->
    synced (run_from st evs) /\ P (sessions (run_from st evs)).
Proof.
  induction evs as [|ev evs IH]; intros st Hs HP.
  - split; assumption.
  - apply IH; [now apply step_synced | now apply step_keeps].
Qed.

End TraceInvariant.

Lemma run_synced (evs : list event) : synced (run evs).
Proof.
  apply (run_from_invariant (fun _ => True)); [trivial | reflexivity | trivial].
Qed.

Lemma firstn_app_firstn {A} (n m : nat) (a b : list A) :
  (m <= n)%nat -> firstn m (a ++ firstn n b) = firstn m (a ++ b).
Proof.
  revert m. induction a as [|x a IH]; intros m Hm.
  - simpl. rewrite firstn_firstn. now rewrite Nat.min_l.
  - destruct m as [|m]; [reflexivity |].
    simpl. f_equal. apply IH. lia.
Qed.

Lemma filter_all {A} (f : A -> bool) (l : list A) :
  (forall x, In x l -> f x = true) -> filter f l = l.
Proof.
  induction l as [|x l IH]; intros H; [reflexivity |].
  simpl. rewrite (H x (or_introl eq_refl)). f_equal.
  apply IH. intros y Hy. apply H. now right.
Qed.

Lemma filter_twice {A} (f : A -> bool) (l : list A) :
  filter f (filter f l) = filter f l.
Proof.
  apply filter_all. intros x Hx. now apply filter_In in Hx.
Qed.

Lemma sessions_after_adds (evs : list event) :
  forall st,
    (List.length (sessions st) <= 50)%nat ->
    forallb keeps_history evs = true ->
    sessions (run_from st evs) = firstn 50 (rev (created st evs) ++ sessions st).
Proof.
  induction evs as [|ev evs IH]; intros st Hlen Hq.
  - symmetry. apply firstn_all2. exact Hlen.
  - cbn [forallb] in Hq. apply andb_true_iff in Hq. destruct Hq as [Hev Hq].
    change (run_from st (ev :: evs)) with (run_from (step st ev) evs).
    rewrite IH; [| | exact Hq].
    + rewrite sessions_step.
      destruct ev; try discriminate Hev; cbn [created]; try reflexivity.
      cbn [rev]. rewrite <- app_assoc. cbn [app].
      apply firstn_app_firstn. lia.
    + rewrite sessions_step.
      destruct ev; try discriminate Hev; try exact Hlen.
      apply firstn_le_length.
Qed.

Lemma step_bounded (st : State) (ev : event) :
  synced st -> (List.length (sessions st) <= 50)%nat ->
  (List.length (sessions (step st ev)) <= 50)%nat.
Proof.
  intros Hs Hlen. rewrite sessions_step. destruct ev; try exact Hlen.
  - apply firstn_le_length.
  - etransitivity; [apply filter_length_le | exact Hlen].
  - cbn. lia.
  - rewrite Hs. exact Hlen.
Qed.

(** C3: after every trace the store holds at most 50 sessions; running
    triage puts the new session in front and keeps the first 50; a trace of
    input edits and triage runs leaves the created sessions newest first,
    cut to 50; and 51 sessions created on an empty store leave exactly 50,
    the 51st down to the 2nd, the first one gone. *)
Theorem store_capped :
  (forall evs, (List.length (sessions (run evs)) <= 50)%nat) /\
  (forall st stamp now,
      sessions (step st (HandleTriage stamp now)) =
      firstn 50 (new_session stamp now st :: sessions st)) /\
  (forall st evs,
      (List.length (sessions st) <= 50)%nat ->
      forallb keeps_history evs = true ->
      sessions (run_from st evs) =
      firstn 50 (rev (created st evs) ++ sessions st)) /\
  (forall st evs,
      sessions st = [] ->
      forallb keeps_history evs = true ->
      List.length (created st evs) = 51%nat ->
      sessions (run_from st evs) = rev (tl (created st evs)) /\
      List.length (sessions (run_from st evs)) = 50%nat).
Proof.
  split; [| split; [| split]].
  - intros evs.
    apply (run_from_invariant (fun l => (List.length l <= 50)%nat));
      [exact step_bounded | reflexivity | cbn; lia].
  - reflexivity.
  - intros st evs. apply sessions_after_adds.
  - intros st evs Hnil Hq Hlen.
    rewrite sessions_after_adds; [| rewrite Hnil; cbn; lia | exact Hq].
    rewrite Hnil, app_nil_r.
    destruct (created st evs) as [|s l]; [discriminate Hlen |].
    cbn [tl rev]. cbn [List.length] in Hlen.
    assert (Hl : List.length (rev l) = 50%nat) by (rewrite length_rev; lia).
    rewrite <- Hl at 1 2. rewrite firstn_app, Nat.sub_diag, firstn_all.
    cbn [firstn]. rewrite app_nil_r. split; [reflexivity | exact Hl].
Qed.

Lemma store_capped_witness :
  sessions (run_from boot fifty_one_runs) =
    rev (tl (created boot fifty_one_runs)) /\
  List.length (sessions (run_from boot fifty_one_runs)) = 50%nat.
Proof.
  apply (proj2 (proj2 (proj2 store_capped)));
    [reflexivity | vm_compute; reflexivity | vm_compute; reflexivity].
Defined.

(** C7, on every state: the "Clear Sessions" handler empties the array and
    removes the stored entry, but the effect that follows the render writes
    the empty array back, so the entry is present again; a page load then
    starts from an empty store. *)
Theorem clear_rewrites_entry (st : State) :
  let st' := step st ClearSessions in
  sessions st' = [] /\
  localStorage (clearSessions st) = None /\
  localStorage st' = Some [] /\
  sessions (step st' Reload) = [].
Proof.
  intros st'. split; [| split; [| split]]; reflexivity.
Qed.

(** ** Session identifiers *)

Lemma digits_inj (n m : Z) : digits n = digits m -> n = m.
Proof.
  unfold digits. intros H. apply DecimalZ.to_int_inj.
  assert (E : Some (Z.to_int n) = Some (Z.to_int m))
    by (rewrite <- !NilEmpty.isi; now rewrite H).
  now injection E.
Qed.

Lemma mkid_inj (n m : Z) : mkid n = mkid m -> n = m.
Proof.
  unfold mkid. cbn [append]. intros H. injection H as H. now apply digits_inj.
Qed.

Lemma chain_weaken (l : list Session) (b b' : Z) :
  (b <= b')%Z -> chain b l -> chain b' l.
Proof.
  destruct l as [|s r]; [trivial |].
  intros Hb (t & Hid & Ht & Hr). exists t. repeat split; [exact Hid | lia | exact Hr].
Qed.

Lemma chain_filter (f : Session -> bool) (l : list Session) :
  forall b, chain b l -> chain b (filter f l).
Proof.
  induction l as [|s r IH]; intros b H; [exact I |].
  destruct H as (t & Hid & Ht & Hr). cbn [filter]. destruct (f s).
  - exists t. repeat split; [exact Hid | exact Ht | now apply IH].
  - apply chain_weaken with t; [lia | now apply IH].
Qed.

Lemma chain_firstn (n : nat) :
  forall l b, chain b l -> chain b (firstn n l).
Proof.
  induction n as [|n IH]; intros l b H; [exact I |].
  destruct l as [|s r]; [exact I |].
  destruct H as (t & Hid & Ht & Hr). cbn [firstn].
  exists t. repeat split; [exact Hid | exact Ht | now apply IH].
Qed.

Lemma chain_below (l : list Session) :
  forall b s, chain b l -> In s l -> exists t, id s = mkid t /\ (t < b)%Z.
Proof.
  induction l as [|x r IH]; intros b s H Hin; [destruct Hin |].
  destruct H as (t & Hid & Ht & Hr). destruct Hin as [<-|Hin].
  - now exists t.
  - destruct (IH t s Hr Hin) as (t' & Hid' & Ht'). exists t'. split; [exact Hid' | lia].
Qed.

Lemma chain_NoDup (l : list Session) :
  forall b, chain b l -> NoDup (map id l).
Proof.
  induction l as [|s r IH]; intros b H; [constructor |].
  destruct H as (t & Hid & Ht & Hr). cbn [map]. constructor; [| now apply IH with t].
  intros Hin. apply in_map_iff in Hin. destruct Hin as (s' & Heq & Hin).
  destruct (chain_below r t s' Hr Hin) as (t' & Hid' & Ht').
  rewrite Hid, Hid' in Heq. apply mkid_inj in Heq. lia.
Qed.

Lemma run_from_chain (evs : list event) :
  forall st b,
    synced st -> chain b (sessions st) -> rising b (ticks evs) = true ->
    exists b', chain b' (sessions (run_from st evs)).
Proof.
  induction evs as [|ev evs IH]; intros st b Hs Hc Hr.
  - now exists b.
  - change (run_from st (ev :: evs)) with (run_from (step st ev) evs).
    pose proof (step_synced st ev Hs) as Hs'.
    destruct ev; cbn [ticks] in Hr;
      try (apply IH with b; [exact Hs' | rewrite sessions_step | exact Hr]).
    + exact Hc.
    + exact Hc.
    + exact Hc.
    + exact Hc.
    + exact Hc.
    + cbn [rising] in Hr. apply andb_true_iff in Hr. destruct Hr as [Hb Hr].
      apply Z.leb_le in Hb.
      apply IH with (now + 1)%Z; [exact Hs' | rewrite sessions_step | exact Hr].
      apply chain_firstn. exists now.
      repeat split; [lia | now apply chain_weaken with b].
    + now apply chain_filter.
    + exact I.
    + rewrite Hs. exact Hc.
Qed.

(** C8, two runs within one millisecond: both sessions get the identifier
    of that reading, so the store holds the same identifier twice. *)
Lemma same_reading_same_id :
  ~ NoDup (map id (sessions (run [HandleTriage 1762128000000 1762128000000;
                                  HandleTriage 1762128000000 1762128000000]))).
Proof.
  intros H. apply NoDup_cons_iff in H. destruct H as [H _].
  apply H. left. reflexivity.
Qed.

(** C8 as the code has it: the identifier of a new session is ["s_"]
    followed by the [Date.now()] reading, and after every trace whose
    readings are strictly increasing the identifiers in the store are
    pairwise distinct. *)
Theorem ids_distinct_on_increasing_clock (evs : list event) :
  increasing (ticks evs) = true ->
  (forall st stamp now,
      id (new_session stamp now st) = ("s_" ++ digits now)%string) /\
  NoDup (map id (sessions (run evs))).
Proof.
  intros Hinc. split; [reflexivity |].
  assert (Hr : exists b, rising b (ticks evs) = true).
  { destruct (ticks evs) as [|t r]; [now exists 0%Z |].
    exists t. cbn [rising]. rewrite Z.leb_refl. exact Hinc. }
  destruct Hr as (b & Hr).
  destruct (run_from_chain evs boot b (run_synced []) I Hr) as (b' & Hc).
  now apply chain_NoDup with b'.
Qed.

Lemma ids_distinct_on_increasing_clock_witness :
  NoDup (map id (sessions (run [SetInputText "dizzy since morning";
                                HandleTriage 1762128000000 1762128000001;
                                HandleTriage 1762128000002 1762128000002;
                                DeleteSession "s_1762128000001";
                                HandleTriage 1762128000417 1762128000418;
                                Reload]))).
Proof.
  apply ids_distinct_on_increasing_clock. reflexivity.
Defined.

(** C9: deleting by identifier keeps exactly the sessions with another
    identifier, in their order; when no stored session has the identifier
    the state after any trace is left as it was; deleting a second time
    changes nothing more. *)
Theorem delete_idempotent :
  (forall st i,
      sessions (step st (DeleteSession i)) =
        filter (fun s => negb (String.eqb (id s) i)) (sessions st) /\
      forall s, In s (sessions (step st (DeleteSession i))) <->
                In s (sessions st) /\ id s <> i) /\
  (forall evs i,
      ~ In i (map id (sessions (run evs))) ->
      step (run evs) (DeleteSession i) = run evs) /\
  (forall st i,
      step (step st (DeleteSession i)) (DeleteSession i) =
      step st (DeleteSession i)).
Proof.
  split; [| split].
  - intros st i. split; [reflexivity |].
    intros s. rewrite sessions_step, filter_In, negb_true_iff.
    now rewrite String.eqb_neq.
  - intros evs i Hnot. pose proof (run_synced evs) as Hs.
    unfold synced in Hs. unfold step, persist, deleteSession.
    destruct (run evs) as [a b c d l ls]. cbn in *.
    assert (E : filter (fun s => negb (String.eqb (id s) i)) l = l).
    { apply filter_all. intros s Hin. apply negb_true_iff, String.eqb_neq.
      intros Heq. apply Hnot. rewrite <- Heq. now apply in_map. }
    unfold set_localStorage, set_sessions. cbn. rewrite E, Hs. reflexivity.
  - intros st i. unfold step, persist, deleteSession, set_localStorage, set_sessions.
    cbn. now rewrite filter_twice.
Qed.

Lemma delete_idempotent_witness :
  step (run [SetInputText "itchy rash"; HandleTriage 10 11]) (DeleteSession "s_12") =
  run [SetInputText "itchy rash"; HandleTriage 10 11].
Proof.
  apply (proj1 (proj2 delete_idempotent)).
  vm_compute. intros [H|[]]. discriminate H.
Defined.

(** ** Further properties of the rule evaluator *)

Lemma lower_char_idem (c : ascii) : lower_char (lower_char c) = lower_char c.
Proof.
  destruct c as [[] [] [] [] [] [] [] []]; reflexivity.
Qed.

Lemma toLowerCase_idem (s : string) : toLowerCase (toLowerCase s) = toLowerCase s.
Proof.
  induction s as [|c s IH]; cbn [toLowerCase]; [reflexivity |].
  now rewrite lower_char_idem, IH.
Qed.

(** The urgency in closed form: the device step adds nothing to the chain. *)
Lemma urgency_closed_form (now : Z) (p : Payload) :
  let f := flags_of (normalized p) in
  let dev := device_of p in
  urgency (triageEngine now p) =
  if chest f || breath f || oxygen_low dev || heart_abnormal dev then "high"
  else if fever f then (if cough f then "moderate" else "low")
  else if vomit f || dizzy f then "moderate" else "low".
Proof.
  intros f dev. unfold triageEngine; cbn [urgency]. fold f dev.
  rewrite incorporate_redundant.
  unfold basic_triage, devWarnings_of, oxygen_low, heart_abnormal.
  destruct (guarded (spo2 dev) _), (guarded (temp dev) _),
    (guarded (hr dev) _), (chest f), (breath f), (fever f), (cough f),
    (rash f), (vomit f), (dizzy f); reflexivity.
Qed.

(** X1: the evaluator does not see the case of letters: two descriptions
    with the same lower-case form get the same result. *)
Theorem case_insensitive (now : Z) (s s' : string) (d : option Device) :
  toLowerCase s = toLowerCase s' ->
  triageEngine now (mkPayload (Some s) d) =
  triageEngine now (mkPayload (Some s') d).
Proof.
  intros H. unfold triageEngine, normalized, device_of. cbn [text device].
  now rewrite H.
Qed.

Lemma case_insensitive_witness :
  triageEngine 0 (mkPayload (Some "Chest PAIN, Dizzy") None) =
  triageEngine 0 (mkPayload (Some "chest pain, dizzy") None).
Proof.
  apply case_insensitive. reflexivity.
Defined.

Lemma guarded_seen (x : option float) (g : float -> bool) :
  guarded (seen x) g = guarded x g.
Proof.
  destruct x as [v|]; [| reflexivity].
  unfold seen, guarded. destruct (Boolean_number v) eqn:E; [| reflexivity].
  now rewrite E.
Qed.

(** X2: a reading of [0], [-0] or [NaN] in any device field counts as no
    reading, and a missing device object as one with three empty fields: the
    result is the one for the readings the guards can see. *)
Theorem falsy_readings_ignored (now : Z) (t : option string) (a b c : option float) :
  triageEngine now (mkPayload t (Some (mkDevice a b c))) =
  triageEngine now (mkPayload t (Some (mkDevice (seen a) (seen b) (seen c)))) /\
  triageEngine now (mkPayload t None) =
  triageEngine now (mkPayload t (Some (mkDevice None None None))).
Proof.
  split; [| reflexivity].
  unfold triageEngine, device_of, devWarnings_of. cbn [device spo2 temp hr normalized text].
  now rewrite !guarded_seen.
Qed.

(** X3: the urgency is [high] exactly when the chest or breath flag is set
    or the oxygen or heart-rate guard fires; otherwise it is [moderate]
    exactly when fever comes with cough, or there is no fever and the vomit
    or dizzy flag is set; in all other cases it is [low]. *)
Theorem urgency_table (now : Z) (p : Payload) :
  let f := flags_of (normalized p) in
  let dev := device_of p in
  let serious := chest f || breath f || oxygen_low dev || heart_abnormal dev in
  let middling :=
    negb serious &&
    (fever f && cough f || negb (fever f) && (vomit f || dizzy f)) in
  (urgency (triageEngine now p) = "high" <-> serious = true) /\
  (urgency (triageEngine now p) = "moderate" <-> middling = true) /\
  (urgency (triageEngine now p) = "low" <-> serious || middling = false).
Proof.
  intros f dev serious middling. rewrite urgency_closed_form.
  fold f dev. subst middling. fold serious.
  destruct serious, (fever f), (cough f), (vomit f || dizzy f); cbn;
    repeat split; intros; (reflexivity || discriminate).
Qed.

(** X4: the temperature reading never changes the urgency nor the list of
    possible conditions: two inputs that differ only in the temperature
    field agree on both. *)
Theorem temperature_leaves_urgency (now : Z) (t : option string)
  (s h tp tp' : option float) :
  let r := triageEngine now (mkPayload t (Some (mkDevice s tp h))) in
  let r' := triageEngine now (mkPayload t (Some (mkDevice s tp' h))) in
  urgency r = urgency r' /\ possible r = possible r'.
Proof.
  intros r r'. subst r r'. split; [| reflexivity].
  now rewrite !urgency_closed_form.
Qed.

(** X5: the bleed flag takes no part in the urgency, the reasons or the
    possible conditions, and the rash flag takes no part in the urgency or
    the reasons. *)
Theorem bleed_and_rash_unused (fe co br ch vo di bl bl' ra ra' : bool)
  (dw : list string) :
  basic_triage (mkFlags fe co br ch vo di bl ra) dw =
  basic_triage (mkFlags fe co br ch vo di bl' ra') dw /\
  possible_of (mkFlags fe co br ch vo di bl ra) =
  possible_of (mkFlags fe co br ch vo di bl' ra).
Proof.
  split; [| reflexivity].
  unfold basic_triage; cbn [chest breath fever cough rash vomit dizzy].
  destruct (ch || br || _), fe, co, ra, ra'; reflexivity.
Qed.

Lemma string_app_nil_r (s : string) : (s ++ "")%string = s.
Proof.
  induction s as [|c s IH]; cbn [append]; [reflexivity | now rewrite IH].
Qed.

Lemma string_app_assoc (a b c : string) :
  ((a ++ b) ++ c)%string = (a ++ b ++ c)%string.
Proof.
  induction a as [|x a IH]; cbn [append]; [reflexivity | now rewrite IH].
Qed.

Lemma concat_empty_cons (x : string) (l : list string) :
  String.concat "" (x :: l) = (x ++ String.concat "" l)%string.
Proof.
  destruct l; cbn [String.concat append]; [now rewrite string_app_nil_r | reflexivity].
Qed.

Lemma concat_space (l : list string) :
  forall x,
    String.concat " " (x :: l) =
    (x ++ String.concat "" (map (fun y => " " ++ y) l))%string.
Proof.
  induction l as [|y l IH]; intros x.
  - cbn [String.concat map]. now rewrite string_app_nil_r.
  - change (String.concat " " (x :: y :: l))
      with (x ++ " " ++ String.concat " " (y :: l))%string.
    rewrite IH. cbn [map]. rewrite concat_empty_cons.
    now rewrite string_app_assoc.
Qed.

Lemma incorporate_reasons (dw : list string) (ur : string * list string) :
  snd (incorporate dw ur) =
  snd ur ++ map (fun w => ("Device reading: " ++ w ++ ".")%string) dw.
Proof.
  unfold incorporate. destruct dw as [|w dw]; [| reflexivity].
  cbn. now rewrite app_nil_r.
Qed.

Lemma basic_triage_reason (flags : Flags) (dw : list string) :
  exists reason,
    snd (basic_triage flags dw) = [reason] /\
    In reason [reason_serious; reason_fever_cough; reason_fever_alone;
               reason_vomit_dizzy; reason_mild].
Proof.
  unfold basic_triage.
  destruct (chest flags || breath flags || _), (fever flags), (cough flags),
    (rash flags), (vomit flags || dizzy flags);
    eexists; (split; [reflexivity | cbn [In]; auto 6]).
Qed.

(** X6: the explanation is one of the five reasons the chain can give (the
    fever-with-rash reason never appears), followed by one line
    [" Device reading: <warning>."] per device warning, in the order of the
    warnings. *)
Theorem explanation_shape (now : Z) (p : Payload) :
  exists reason,
    In reason [reason_serious; reason_fever_cough; reason_fever_alone;
               reason_vomit_dizzy; reason_mild] /\
    explanation (triageEngine now p) =
    (reason ++
     String.concat "" (map device_line (devWarnings_of (device_of p))))%string.
Proof.
  unfold triageEngine; cbn [explanation].
  destruct (basic_triage_reason (flags_of (normalized p))
              (devWarnings_of (device_of p))) as (reason & Hr & Hin).
  exists reason. split; [exact Hin |].
  rewrite incorporate_reasons, Hr. cbn [app].
  rewrite concat_space, map_map. reflexivity.
Qed.

(** X7: which conditions are listed: each of the four entries is present
    exactly when its check holds, the common-cold entry exactly when none
    does, and no entry is listed twice. *)
Theorem possible_entries (now : Z) (p : Payload) :
  let f := flags_of (normalized p) in
  let l := possible (triageEngine now p) in
  (In "Flu or respiratory infection" l <-> fever f && cough f = true) /\
  (In "Lower respiratory tract issue (e.g., pneumonia)" l <->
   cough f && breath f = true) /\
  (In "Allergic reaction or skin infection" l <-> rash f = true) /\
  (In "Gastroenteritis or food-related illness" l <-> vomit f = true) /\
  (In common_cold l <->
   fever f && cough f || cough f && breath f || rash f || vomit f = false) /\
  NoDup l.
Proof.
  intros f l. subst l. unfold triageEngine; cbn [possible]. fold f.
  unfold possible_of.
  destruct (fever f), (cough f), (breath f), (rash f), (vomit f); cbn;
    repeat (split; [split; intros H;
                    [repeat (destruct H as [H|H]; try discriminate H); try reflexivity;
                     try contradiction
                    | try discriminate H; auto 6] |]);
    repeat (constructor; [cbn; intros H;
                          repeat (destruct H as [H|H]; try discriminate H);
                          contradiction |]); constructor.
Qed.

Lemma all_alnum_snoc (s : string) (c : ascii) :
  all_alnum (s ++ String c "")%string = all_alnum s && is_alnum c.
Proof.
  induction s as [|x s IH]; cbn [append all_alnum].
  - now rewrite andb_true_r.
  - now rewrite IH, andb_assoc.
Qed.

Lemma split_from_alnum (s : string) :
  forall insep cur,
    all_alnum cur = true ->
    Forall (fun w => all_alnum w = true) (split_from insep cur s).
Proof.
  induction s as [|c s IH]; intros insep cur Hc; cbn [split_from].
  - constructor; [exact Hc | constructor].
  - destruct (is_alnum c) eqn:E.
    + apply IH. now rewrite all_alnum_snoc, Hc, E.
    + destruct insep; [now apply IH |].
      constructor; [exact Hc | now apply IH].
Qed.

(** X8: every word of the word list is non-empty and made of letters and
    digits only. *)
Theorem words_are_alnum (t : string) :
  Forall (fun w => w <> "" /\ all_alnum w = true) (words_of t).
Proof.
  apply Forall_forall. intros w Hin. unfold words_of in Hin.
  apply filter_In in Hin. destruct Hin as [Hin Hne]. split.
  - intros ->. discriminate Hne.
  - pose proof (split_from_alnum t false "" eq_refl) as H.
    rewrite Forall_forall in H. now apply H.
Qed.

Lemma split_from_word (w : string) :
  all_alnum w = true ->
  forall insep cur rest,
    w <> "" \/ insep = false ->
    split_from insep cur (w ++ rest)%string =
    split_from false (cur ++ w)%string rest.
Proof.
  induction w as [|c w IH]; intros Hw insep cur rest Hor.
  - destruct Hor as [Hor| ->]; [now elim Hor |].
    now rewrite string_app_nil_r.
  - cbn [all_alnum] in Hw. apply andb_true_iff in Hw. destruct Hw as [Hc Hw].
    cbn [append split_from]. rewrite Hc.
    rewrite (IH Hw false _ rest (or_intror eq_refl)).
    now rewrite string_app_assoc.
Qed.

Lemma split_joined (ws : list string) :
  Forall (fun w => w <> "" /\ all_alnum w = true) ws ->
  forall x insep,
    x <> "" -> all_alnum x = true ->
    split_from insep "" (String.concat " " (x :: ws)) = x :: ws.
Proof.
  induction 1 as [|y ws [Hy Hay] Hws IH]; intros x insep Hx Hax.
  - cbn [String.concat]. rewrite <- (string_app_nil_r x) at 1.
    rewrite split_from_word; [reflexivity | exact Hax | now left].
  - change (String.concat " " (x :: y :: ws))
      with (x ++ String " " (String.concat " " (y :: ws)))%string.
    rewrite split_from_word; [| exact Hax | now left].
    cbn [append split_from].
    change (is_alnum " ") with false. cbv iota.
    f_equal. now apply IH.
Qed.

(** X9: a description made of words of letters and digits separated by
    single spaces is split back into exactly those words. *)
Theorem words_of_joined (ws : list string) :
  Forall (fun w => w <> "" /\ all_alnum w = true) ws ->
  words_of (String.concat " " ws) = ws.
Proof.
  intros H. unfold words_of, split.
  destruct H as [|x ws [Hx Hax] Hws]; [reflexivity |].
  rewrite split_joined; [| exact Hws | exact Hx | exact Hax].
  apply filter_all. intros w [<-|Hin].
  - destruct x; [now elim Hx | reflexivity].
  - rewrite Forall_forall in Hws. destruct (Hws w Hin) as [Hw _].
    destruct w; [now elim Hw | reflexivity].
Qed.

Lemma words_of_joined_witness :
  words_of (String.concat " " ["fever"; "for"; "3"; "days"]) =
  ["fever"; "for"; "3"; "days"].
Proof.
  apply words_of_joined.
  repeat (constructor; [split; [discriminate | reflexivity] |]). constructor.
Defined.

Lemma confidence_cases (k : nat) (dw : list string) (u : string) :
  let c := (toFixed0 (confidence_of k dw u * 100) ++ "%")%string in
  (u = "high" -> In c ["80%"; "90%"]) /\
  (c = "90%" <-> (6 <? k)%nat && (0 <? List.length dw)%nat = true) /\
  (c = "60%" <->
   (6 <? k)%nat = false /\ (0 <? List.length dw)%nat = false /\ u <> "high").
Proof.
  intros c. subst c. rewrite confidence_refines.
  destruct (String.eqb_spec u "high") as [E|E];
    destruct (6 <? k)%nat, (0 <? List.length dw)%nat; vm_compute;
    (split; [| split; split]);
    intros; try discriminate; try contradiction; try reflexivity; auto;
    try (repeat split; (reflexivity || exact E));
    try (exfalso; intuition congruence).
Qed.

(** X10: a result of urgency [high] reports 80% or 90%; 90% is reported
    exactly when the description has more than 6 words and a device warning
    exists; 60% exactly when it has at most 6 words, no warning exists and
    the urgency is not [high]. *)
Theorem confidence_by_urgency (now : Z) (p : Payload) :
  let r := triageEngine now p in
  let many := (6 <? List.length (words_of (normalized p)))%nat in
  let warned := (0 <? List.length (devWarnings_of (device_of p)))%nat in
  (urgency r = "high" -> In (confidence r) ["80%"; "90%"]) /\
  (confidence r = "90%" <-> many && warned = true) /\
  (confidence r = "60%" <->
   many = false /\ warned = false /\ urgency r <> "high").
Proof.
  intros r many warned. subst r many warned.
  unfold triageEngine; cbn [urgency confidence].
  apply confidence_cases.
Qed.

Lemma confidence_by_urgency_witness :
  In (confidence
        (triageEngine 0 (mkPayload (Some "short of breath") None)))
     ["80%"; "90%"].
Proof.
  apply (proj1 (confidence_by_urgency 0 (mkPayload (Some "short of breath") None))).
  reflexivity.
Defined.

(** ** Further properties of the session store *)

(** X11: after every trace the stored entry exists and holds exactly the
    current session array. *)
Theorem storage_written_through (evs : list event) :
  localStorage (run evs) = Some (sessions (run evs)) /\
  load (localStorage (run evs)) = sessions (run evs).
Proof.
  pose proof (run_synced evs) as H. unfold synced in H.
  split; [exact H | now rewrite H].
Qed.

(** X12: a page load after any trace brings the same sessions back and
    leaves the stored entry as it was, while the description, the transcript,
    the device readings and the displayed result start empty. *)
Theorem reload_keeps_history (evs : list event) :
  let st := step (run evs) Reload in
  sessions st = sessions (run evs) /\
  localStorage st = localStorage (run evs) /\
  inputText st = "" /\ transcript st = "" /\
  deviceData st = mkDevice None None None /\
  currentResult st = None.
Proof.
  pose proof (run_synced evs) as H. unfold synced in H.
  intros st. subst st. cbn [step]. rewrite H.
  repeat split.
Qed.

(** X13: running triage puts at the head of the store the session whose
    result is shown, computed by the evaluator from the current readings and
    from the description, or from the last transcript when the description
    is empty; right after a speech result the text is that transcript. *)
Theorem triaged_input (st : State) (stamp now : Z) :
  (exists s,
      hd_error (sessions (step st (HandleTriage stamp now))) = Some s /\
      currentResult (step st (HandleTriage stamp now)) = Some (result s) /\
      result s = triageEngine stamp (input s) /\
      device (input s) = Some (deviceData st) /\
      text (input s) =
        Some (if String.eqb (inputText st) "" then transcript st
              else inputText st)) /\
  (forall t,
      option_map (fun s => text (input s))
        (hd_error (sessions (step (step st (OnResult t))
                                  (HandleTriage stamp now)))) =
      Some (Some t)).
Proof.
  split.
  - exists (new_session stamp now st). repeat split.
    cbn [new_session input payload_of text].
    destruct (inputText st); reflexivity.
  - intros t. cbn [step persist handleTriage set_localStorage sessions
                   firstn hd_error option_map new_session input payload_of
                   text inputText transcript].
    destruct (Boolean_string t); reflexivity.
Qed.

Lemma Forall_firstn_keeps {A} (Q : A -> Prop) (n : nat) :
  forall l, Forall Q l -> Forall Q (firstn n l).
Proof.
  induction n as [|n IH]; intros l H; [constructor |].
  destruct H as [|x l Hx Hl]; [constructor |].
  cbn [firstn]. constructor; [exact Hx | now apply IH].
Qed.

Lemma Forall_filter_keeps {A} (Q : A -> Prop) (f : A -> bool) (l : list A) :
  Forall Q l -> Forall Q (filter f l).
Proof.
  rewrite !Forall_forall. intros H x Hx. apply filter_In in Hx. now apply H.
Qed.

(** X14: after every trace each stored session carries the evaluator's
    result for its own input, an identifier made from a clock reading, and
    an input with a text and a device object. *)
Theorem stored_sessions_consistent (evs : list event) :
  Forall (fun s =>
            result s = triageEngine (timestamp (result s)) (input s) /\
            (exists now, id s = ("s_" ++ digits now)%string) /\
            (exists txt dev, input s = mkPayload (Some txt) (Some dev)))
         (sessions (run evs)).
Proof.
  refine (proj2 (run_from_invariant (Forall _) _ evs boot eq_refl _));
    [| constructor].
  intros st ev Hs HP. rewrite sessions_step. destruct ev; try exact HP.
  - apply Forall_firstn_keeps. constructor; [| exact HP].
    split; [reflexivity |]. split; [now exists now |].
    do 2 eexists. reflexivity.
  - now apply Forall_filter_keeps.
  - constructor.
  - rewrite Hs. exact HP.
Qed.

Lemma filter_out_count (i : string) (l : list Session) :
  (List.length (filter (fun s => negb (String.eqb (id s) i)) l) +
   count_occ string_dec (map id l) i = List.length l)%nat.
Proof.
  induction l as [|s l IH]; [reflexivity |].
  cbn [filter map count_occ List.length].
  destruct (string_dec (id s) i) as [E|E].
  - apply String.eqb_eq in E. rewrite E. cbn [negb]. lia.
  - apply String.eqb_neq in E. rewrite E. cbn [negb List.length]. lia.
Qed.

(** X15: deleting by identifier removes as many sessions as carry it; when
    the identifiers in the store are pairwise distinct and the identifier is
    there, exactly one session goes. *)
Theorem delete_removes_matches (st : State) (i : string) :
  (List.length (sessions (step st (DeleteSession i))) +
   count_occ string_dec (map id (sessions st)) i =
   List.length (sessions st))%nat /\
  (NoDup (map id (sessions st)) -> In i (map id (sessions st)) ->
   S (List.length (sessions (step st (DeleteSession i)))) =
   List.length (sessions st)).
Proof.
  rewrite sessions_step. pose proof (filter_out_count i (sessions st)) as H.
  split; [exact H |].
  intros Hnd Hin.
  assert (E : count_occ string_dec (map id (sessions st)) i = 1%nat).
  { apply NoDup_count_occ' with (decA := string_dec) in Hin; assumption. }
  lia.
Qed.

Lemma delete_removes_matches_witness :
  S (List.length
       (sessions (step (run [HandleTriage 1 1; HandleTriage 2 2; HandleTriage 3 3])
                       (DeleteSession "s_2")))) =
  List.length (sessions (run [HandleTriage 1 1; HandleTriage 2 2; HandleTriage 3 3])).
Proof.
  apply (proj2 (delete_removes_matches _ "s_2")).
  - vm_compute. repeat (constructor; [cbn; intuition discriminate |]). constructor.
  - vm_compute. auto.
Defined.

Lemma filter_swap {A} (f g : A -> bool) (l : list A) :
  filter f (filter g l) = filter g (filter f l).
Proof.
  induction l as [|x l IH]; [reflexivity |].
  cbn [filter]. destruct (f x) eqn:Ef, (g x) eqn:Eg; cbn [filter];
    rewrite ?Ef, ?Eg, IH; reflexivity.
Qed.

(** X16: two deletions commute: the state after deleting [i] then [j] is
    the state after deleting [j] then [i]. *)
Theorem delete_commutes (st : State) (i j : string) :
  step (step st (DeleteSession i)) (DeleteSession j) =
  step (step st (DeleteSession j)) (DeleteSession i).
Proof.
  unfold step, persist, deleteSession, set_localStorage, set_sessions.
  cbn [sessions inputText transcript deviceData currentResult localStorage].
  now rewrite filter_swap.
Qed.

Lemma created_count (evs : list event) :
  forall st, List.length (created st evs) = List.length (ticks evs).
Proof.
  induction evs as [|ev evs IH]; intros st; [reflexivity |].
  destruct ev; cbn [created ticks List.length]; now rewrite IH.
Qed.

(** X17: while nothing is deleted, cleared or reloaded, the store grows by
    one session per triage run until it holds 50 and stays there. *)
Theorem store_size_after_runs (st : State) (evs : list event) :
  (List.length (sessions st) <= 50)%nat ->
  forallb keeps_history evs = true ->
  List.length (sessions (run_from st evs)) =
  Nat.min 50 (List.length (ticks evs) + List.length (sessions st)).
Proof.
  intros Hlen Hq. rewrite sessions_after_adds by assumption.
  now rewrite length_firstn, length_app, length_rev, created_count.
Qed.

Lemma store_size_after_runs_witness :
  List.length (sessions (run_from boot fifty_one_runs)) =
  Nat.min 50 (List.length (ticks fifty_one_runs) + List.length (sessions boot)).
Proof.
  apply store_size_after_runs; [vm_compute; lia | reflexivity].
Defined.

Lemma In_firstn_keeps {A} (n : nat) (l : list A) (x : A) :
  In x (firstn n l) -> In x l.
Proof.
  intros H. rewrite <- (firstn_skipn n l). apply in_or_app. now left.
Qed.

(** X18: no event invents a session: after one event on a state whose
    stored entry is up to date, every session in the store was there before
    or is the one that triage run has just created. *)
Theorem sessions_come_from_triage (st : State) (ev : event) (s : Session) :
  localStorage st = Some (sessions st) ->
  In s (sessions (step st ev)) ->
  In s (sessions st) \/
  exists stamp now, ev = HandleTriage stamp now /\ s = new_session stamp now st.
Proof.
  intros Hs Hin. rewrite sessions_step in Hin. destruct ev; auto.
  - apply In_firstn_keeps in Hin. destruct Hin as [<-|Hin]; [right; eauto | now left].
  - apply filter_In in Hin. now left.
  - destruct Hin.
  - rewrite Hs in Hin. now left.
Qed.

Lemma sessions_come_from_triage_witness :
  In (new_session 7 8 boot) (sessions boot) \/
  exists stamp now,
    HandleTriage 7 8 = HandleTriage stamp now /\
    new_session 7 8 boot = new_session stamp now boot.
Proof.
  apply sessions_come_from_triage; [reflexivity | left; reflexivity].
Defined.

(** X19: after the device readings are cleared, a triage run reports no
    device line: the explanation is one of the five reasons alone, and the
    confidence is 60%, 75% or 80%. *)
Theorem triage_after_clearDevice (st : State) (stamp now : Z) :
  exists s,
    hd_error (sessions (step (step st ClearDevice) (HandleTriage stamp now)))
      = Some s /\
    In (explanation (result s))
       [reason_serious; reason_fever_cough; reason_fever_alone;
        reason_vomit_dizzy; reason_mild] /\
    In (confidence (result s)) ["60%"; "75%"; "80%"].
Proof.
  eexists. split; [reflexivity |].
  cbn [new_session result payload_of step inputText transcript deviceData].
  set (txt := if Boolean_string (inputText st) then inputText st else transcript st).
  unfold triageEngine, device_of; cbn [explanation confidence device].
  change (devWarnings_of (mkDevice None None None)) with (@nil string).
  split.
  - match goal with
    | |- context [basic_triage ?f ?d] =>
        destruct (basic_triage_reason f d) as (reason & Hr & Hin)
    end.
    rewrite incorporate_reasons, Hr. exact Hin.
  - rewrite confidence_refines.
    destruct (6 <? _)%nat, (String.eqb _ "high"); vm_compute; auto.
Qed.

(** ** Low oxygen in the running page *)





